(** * ATS scoring engine of the resume service: shallow embedding and proofs

    The functions embedded here are the methods of the class
    [ResumeService] (in [src/services/subscriptionService.ts]) that
    compute the ATS score:
    [normalizeText], [extractKeywords], [calculateKeywordOverlap],
    [extractSkillsFromJobDescription], [getResumeSkills],
    [calculateSkillMatch], [findMissingSkills],
    [calculateExperienceAlignment], [generateKeywordImprovements],
    [convertResumeDataToText], [calculateATSScoreRuleBased],
    [calculateATSScoreWithAI] and the entry point [calculateATSScore].

    Conventions of the embedding:
    - a JavaScript string is a [string]; each character is one UTF-16 code
      unit in the range U+0000..U+00FF, so every statement below quantifies
      over the strings of that alphabet;
    - a JavaScript number is an IEEE 754 binary64 value ([float]), with the
      kernel's own arithmetic, NaN included;
    - [Array], [Set] and [Map] are lists in insertion order;
    - a regular expression literal is a term of [Regex.re], run by a
      backtracking matcher that follows the ECMAScript evaluation order. *)

From Stdlib Require Import Bool Arith NArith ZArith Lia List Ascii String.
From Stdlib Require Import PrimFloat FloatOps SpecFloat.
From Stdlib Require Uint63.

Set Warnings "-inexact-float,-register-all".
Import ListNotations.

Local Open Scope string_scope.
Local Open Scope list_scope.

(* ===================================================================== *)
(** ** JavaScript strings *)
(* ===================================================================== *)

Module Js.

Definition code (c : ascii) : N := N_of_ascii c.

Definition between (lo hi : N) (c : ascii) : bool :=
  ((lo <=? code c) && (code c <=? hi))%N.

Definition isUpperAZ (c : ascii) : bool := between 65 90 c.
Definition isLowerAZ (c : ascii) : bool := between 97 122 c.
Definition isDigit (c : ascii) : bool := between 48 57 c.

(** [\w] without the [u] flag: [A-Za-z0-9_]. *)
Definition isWordChar (c : ascii) : bool :=
  isUpperAZ c || isLowerAZ c || isDigit c || (code c =? 95)%N.

(** [\s], and the characters removed by [trim]: TAB, LF, VT, FF, CR,
    SPACE and NO-BREAK SPACE are the ones below U+0100. *)
Definition isWhiteSpace (c : ascii) : bool :=
  between 9 13 c || (code c =? 32)%N || (code c =? 160)%N.

(** One code unit of [String.prototype.toLowerCase]: A-Z, and the
    upper-case letters of the Latin-1 supplement (U+00C0..U+00DE without
    the multiplication sign U+00D7). *)
Definition toLowerChar (c : ascii) : ascii :=
  if isUpperAZ c || (between 192 222 c && negb (code c =? 215)%N)
  then ascii_of_N (code c + 32)
  else c.

(** Canonicalisation used by the [i] flag (no [u] flag): upper-casing,
    which never maps a code unit above U+007F onto an ASCII one. *)
Definition toUpperAZ (c : ascii) : ascii :=
  if isLowerAZ c then ascii_of_N (code c - 32) else c.

Fixpoint smap (f : ascii -> ascii) (s : string) : string :=
  match s with
  | EmptyString => EmptyString
  | String c t => String (f c) (smap f t)
  end.

Fixpoint sall (p : ascii -> bool) (s : string) : bool :=
  match s with
  | EmptyString => true
  | String c t => p c && sall p t
  end.

Definition toLowerCase (s : string) : string := smap toLowerChar s.

Definition isEmpty (s : string) : bool :=
  match s with EmptyString => true | _ => false end.

Fixpoint trimStart (s : string) : string :=
  match s with
  | String c t => if isWhiteSpace c then trimStart t else s
  | EmptyString => EmptyString
  end.

Fixpoint trimEnd (s : string) : string :=
  match s with
  | EmptyString => EmptyString
  | String c t =>
      let t' := trimEnd t in
      if isWhiteSpace c && isEmpty t' then EmptyString else String c t'
  end.

Definition trim (s : string) : string := trimEnd (trimStart s).

(** [s.includes(sub)] *)
Fixpoint includes (s sub : string) : bool :=
  prefix sub s ||
  match s with
  | EmptyString => false
  | String _ t => includes t sub
  end.

(** [parts.join(sep)] *)
Definition join (sep : string) (parts : list string) : string :=
  concat sep parts.

(** [s.split(/\s+/)]: the pieces between maximal runs of white space; a
    string that starts (ends) with white space yields an empty first
    (last) piece, and the empty string yields one empty piece. *)
Fixpoint split_ws (s : string) : list string :=
  match s with
  | EmptyString => [EmptyString]
  | String c t =>
      let r := split_ws t in
      if isWhiteSpace c then
        match t with
        | String c' _ => if isWhiteSpace c' then r else EmptyString :: r
        | EmptyString => EmptyString :: r
        end
      else
        match r with
        | w :: ws => String c w :: ws
        | [] => [String c EmptyString]
        end
  end.

(** [s.split(/[...]/)] for a class [sep] of single characters. *)
Fixpoint split_on (sep : ascii -> bool) (s : string) : list string :=
  match s with
  | EmptyString => [EmptyString]
  | String c t =>
      let r := split_on sep t in
      if sep c then EmptyString :: r
      else
        match r with
        | w :: ws => String c w :: ws
        | [] => [String c EmptyString]
        end
  end.

(** [list.includes(x)] and [set.has(x)] on strings. *)
Definition has (l : list string) (x : string) : bool :=
  existsb (String.eqb x) l.

(** [new Set(list)], as the list of its members in insertion order. *)
Definition Set_add (s : list string) (x : string) : list string :=
  if has s x then s else s ++ [x].

Definition Set_from (l : list string) : list string :=
  fold_left Set_add l [].

(** [list.slice(0, n)] *)
Definition slice0 {A : Type} (n : nat) (l : list A) : list A := firstn n l.

End Js.

Import Js.

(* ===================================================================== *)
(** ** JavaScript numbers *)
(* ===================================================================== *)

Module Num.

Local Open Scope float_scope.

Definition of_Z (z : Z) : float :=
  match z with
  | Z0 => 0
  | Zpos _ => of_uint63 (Uint63.of_Z z)
  | Zneg p => - of_uint63 (Uint63.of_Z (Zpos p))
  end.

(** An array length or a counter, as a number (exact below 2^53). *)
Definition of_nat (n : nat) : float := of_Z (Z.of_nat n).

(** [Math.max(a, b)]: NaN if either is NaN, and +0 above -0. *)
Definition Math_max (a b : float) : float :=
  if is_nan a || is_nan b then nan
  else if a <? b then b
  else if b <? a then a
  else if get_sign a then b else a.

(** [Math.min(a, b)]: NaN if either is NaN, and -0 below +0. *)
Definition Math_min (a b : float) : float :=
  if is_nan a || is_nan b then nan
  else if a <? b then a
  else if b <? a then b
  else if get_sign a then a else b.

(** [Math.round(x)]: the integer nearest to [x], a tie going up; NaN,
    the infinities and the zeros are returned unchanged, and a result
    of zero keeps the sign of [x]. A finite [x] is [±m·2^e], so the
    result is [floor ((2·(±m) + 2^-e) / 2^(1-e))] when [e < 0]. *)
Definition Math_round (x : float) : float :=
  match Prim2SF x with
  | S754_finite sgn m e =>
      if (0 <=? e)%Z then x
      else
        let z := if sgn then Zneg m else Zpos m in
        let n := ((2 * z + 2 ^ (- e)) / 2 ^ (1 - e))%Z in
        if (n =? 0)%Z then (if sgn then -0 else 0) else of_Z n
  | _ => x
  end.

(** [x || 0] on numbers: NaN and the zeros are falsy. *)
Definition or_zero (x : float) : float :=
  if is_nan x || is_zero x then 0 else x.

End Num.

Import Num.

(* ===================================================================== *)
(** ** Regular expressions *)
(* ===================================================================== *)

Module Regex.

(** The constructs that occur in the service's regular expression
    literals. [Chr p] is one character of a class, [Bos] and [Eos] are
    [^] and [$] without the [m] flag, [Star true a] is [a*], [Star false a]
    is [a*?], [Grp a] is the capture group (every literal has exactly
    one) and [Ahead a] is [(?=a)]. *)
Inductive re : Type :=
| Chr (p : ascii -> bool)
| Emp
| Bos
| Eos
| Cat (a b : re)
| Alt (a b : re)
| Star (greedy : bool) (a : re)
| Grp (a : re)
| Ahead (a : re).

(** Matcher state: the input still to read, the index reached and the
    text captured by the group. *)
Record st : Type := mkst { rest : string; pos : nat; cap : option string }.

(** Backtracking matcher in continuation-passing style: [run r k s]
    tries the ways [r] can match at [s] in priority order and returns
    the first for which the continuation [k] succeeds. An iteration of a
    starred term that consumes nothing is rejected, as in ECMAScript, so
    [S (length (rest s))] iterations are enough. *)
Fixpoint run (r : re) (k : st -> option st) (s : st) {struct r} : option st :=
  match r with
  | Chr p =>
      match rest s with
      | String c t => if p c then k (mkst t (S (pos s)) (cap s)) else None
      | EmptyString => None
      end
  | Emp => k s
  | Bos => if Nat.eqb (pos s) 0 then k s else None
  | Eos => if isEmpty (rest s) then k s else None
  | Cat a b => run a (run b k) s
  | Alt a b =>
      match run a k s with
      | Some m => Some m
      | None => run b k s
      end
  | Star greedy a =>
      (fix loop (n : nat) (s : st) {struct n} : option st :=
         match n with
         | O => None
         | S n' =>
             let more (_ : unit) :=
               run a (fun s' =>
                        if (String.length (rest s') <? String.length (rest s))%nat
                        then loop n' s' else None) s in
             if greedy then
               match more tt with
               | Some m => Some m
               | None => k s
               end
             else
               match k s with
               | Some m => Some m
               | None => more tt
               end
         end) (S (String.length (rest s))) s
  | Grp a =>
      run a (fun s' =>
               k (mkst (rest s') (pos s')
                    (Some (substring 0
                             (String.length (rest s) - String.length (rest s'))
                             (rest s))))) s
  | Ahead a =>
      match run a Some s with
      | Some s' => k (mkst (rest s) (pos s) (cap s'))
      | None => None
      end
  end.

(** [RegExp.prototype.exec] without the [g] flag: the match at the
    leftmost start index that has one. *)
Fixpoint scan (r : re) (s : string) (i : nat) : option st :=
  match run r Some (mkst s i None) with
  | Some m => Some m
  | None =>
      match s with
      | String _ t => scan r t (S i)
      | EmptyString => None
      end
  end.

(** [s.match(r)], reduced to what the callers read: [None] when there is
    no match, else the text of group 1 (empty when the group did not
    take part). *)
Definition match1 (r : re) (s : string) : option string :=
  match scan r s 0 with
  | Some m => Some (match cap m with Some g => g | None => EmptyString end)
  | None => None
  end.

(** Building blocks for the literals. *)
Definition any : re := Chr (fun _ => true).
Definition ch (c : ascii) : re := Chr (Ascii.eqb c).
Definition ch_i (c : ascii) : re :=
  Chr (fun x => Ascii.eqb (toUpperAZ x) (toUpperAZ c)).

Fixpoint lit (s : string) : re :=
  match s with
  | EmptyString => Emp
  | String c EmptyString => ch c
  | String c t => Cat (ch c) (lit t)
  end.

(** A literal under the [i] flag. *)
Fixpoint lit_i (s : string) : re :=
  match s with
  | EmptyString => Emp
  | String c EmptyString => ch_i c
  | String c t => Cat (ch_i c) (lit_i t)
  end.

Fixpoint alts (l : list re) : re :=
  match l with
  | [] => Chr (fun _ => false)
  | [a] => a
  | a :: t => Alt a (alts t)
  end.

Fixpoint cats (l : list re) : re :=
  match l with
  | [] => Emp
  | [a] => a
  | a :: t => Cat a (cats t)
  end.

Definition opt (a : re) : re := Alt a Emp.              (* a?  *)
Definition star (a : re) : re := Star true a.           (* a*  *)
Definition plus (a : re) : re := Cat a (Star true a).   (* a+  *)
Definition star_lazy (a : re) : re := Star false a.     (* a*? *)
Definition plus_lazy (a : re) : re := Cat a (Star false a). (* a+? *)

End Regex.

Import Regex.

(* ===================================================================== *)
(** ** Data model (the interfaces of [models/types]) *)
(* ===================================================================== *)

Module ContactInfo.
Record t : Type := mk {
  name : string;
  email : string;
  phone : option string;
  linkedin : option string;
  github : option string;
  portfolio : option string;
  location : option string
}.
End ContactInfo.

Module ExperienceItem.
Record t : Type := mk {
  id : string;
  title : string;
  company : string;
  location : option string;
  startDate : string;
  endDate : option string;
  current : option bool;
  bullets : list string
}.
End ExperienceItem.

Module ProjectItem.
Record t : Type := mk {
  id : string;
  name : string;
  description : string;
  technologies : list string;
  link : option string;
  bullets : list string
}.
End ProjectItem.

Module EducationItem.
Record t : Type := mk {
  id : string;
  degree : string;
  institution : string;
  location : option string;
  graduationDate : string;
  gpa : option string;
  highlights : option (list string)
}.
End EducationItem.

Module ResumeData.
Record t : Type := mk {
  id : option string;
  summary : string;
  skills : list string;
  experience : list ExperienceItem.t;
  projects : list ProjectItem.t;
  education : list EducationItem.t;
  contact : option ContactInfo.t
}.
End ResumeData.

(** The argument type [ResumeData | Record<string, never>], with the
    [null]/[undefined] that the guards [!resumeData] admit. A value of
    the interface [ResumeData] has its five required keys, so
    [Object.keys(resumeData).length === 0] holds of [EmptyObject] only. *)
Inductive ResumeInput : Type :=
| Nullish
| EmptyObject
| Structured (data : ResumeData.t).

(** [!resumeData || Object.keys(resumeData).length === 0] *)
Definition isBlank (r : ResumeInput) : bool :=
  match r with
  | Structured _ => false
  | _ => true
  end.

(** The object every scoring function resolves to. *)
Record ScoreResult : Type := mkScore {
  score : float;
  skillMatch : float;
  missingSkills : list string;
  keywordImprovements : list string;
  experienceAlignment : float
}.

(* ===================================================================== *)
(** ** Text normalisation and keyword extraction *)
(* ===================================================================== *)

Definition stopWords : list string := [
  "a"; "an"; "and"; "are"; "as"; "at"; "be"; "by"; "for"; "from";
  "has"; "he"; "in"; "is"; "it"; "its"; "of"; "on"; "that"; "the";
  "to"; "was"; "were"; "will"; "with"; "the"; "this"; "but"; "they";
  "have"; "had"; "what"; "said"; "each"; "which"; "their"; "time";
  "if"; "up"; "out"; "many"; "then"; "them"; "these"; "so"; "some";
  "her"; "would"; "make"; "like"; "into"; "him"; "has"; "two"; "more";
  "very"; "after"; "words"; "long"; "than"; "first"; "been"; "call";
  "who"; "oil"; "sit"; "now"; "find"; "down"; "day"; "did"; "get";
  "come"; "made"; "may"; "part"; "over"; "new"; "sound"; "take"; "only";
  "little"; "work"; "know"; "place"; "year"; "live"; "me"; "back"; "give";
  "most"; "very"; "after"; "thing"; "our"; "just"; "name"; "good"; "sentence";
  "man"; "think"; "say"; "great"; "where"; "help"; "through"; "much"; "before";
  "line"; "right"; "too"; "means"; "old"; "any"; "same"; "tell"; "boy"; "follow";
  "came"; "want"; "show"; "also"; "around"; "form"; "three"; "small"; "set";
  "put"; "end"; "does"; "another"; "well"; "large"; "must"; "big"; "even";
  "such"; "because"; "turn"; "here"; "why"; "ask"; "went"; "men"; "read";
  "need"; "land"; "different"; "home"; "us"; "move"; "try"; "kind"; "hand";
  "picture"; "again"; "change"; "off"; "play"; "spell"; "air"; "away"; "animal";
  "house"; "point"; "page"; "letter"; "mother"; "answer"; "found"; "study"; "still";
  "learn"; "should"; "america"; "world"; "high"; "every"; "near"; "add"; "food";
  "between"; "own"; "below"; "country"; "plant"; "last"; "school"; "father"; "keep";
  "tree"; "never"; "start"; "city"; "earth"; "eye"; "light"; "thought"; "head";
  "under"; "story"; "saw"; "left"; "don't"; "few"; "while"; "along"; "might";
  "close"; "something"; "seem"; "next"; "hard"; "open"; "example"; "begin"; "life";
  "always"; "those"; "both"; "paper"; "together"; "got"; "group"; "often"; "run";
  "important"; "until"; "children"; "side"; "feet"; "car"; "mile"; "night"; "walk";
  "white"; "sea"; "began"; "grow"; "took"; "river"; "four"; "carry"; "state";
  "once"; "book"; "hear"; "stop"; "without"; "second"; "later"; "miss"; "idea";
  "enough"; "eat"; "face"; "watch"; "far"; "indian"; "real"; "almost"; "let";
  "above"; "girl"; "sometimes"; "mountain"; "cut"; "young"; "talk"; "soon"; "list";
  "song"; "leave"; "family"; "it's"
].

(** [.replace(/[^\w\s]/g, ' ')] *)
Definition replacePunctuation (s : string) : string :=
  smap (fun c => if isWordChar c || isWhiteSpace c then c else " "%char) s.

(** The predicate of the [filter] in [normalizeText]. *)
Definition keepWord (word : string) : bool :=
  (2 <? String.length word)%nat && negb (has stopWords word).

Definition normalizeText (text : string) : string :=
  let words :=
    filter keepWord (split_ws (replacePunctuation (toLowerCase text))) in
  join " " words.

Definition techTerms : list string := [
  "javascript"; "python"; "java"; "typescript"; "react"; "angular"; "vue";
  "node"; "express"; "sql"; "mongodb"; "postgresql"; "mysql"; "aws"; "azure";
  "docker"; "kubernetes"; "git"; "agile"; "scrum"; "api"; "rest"; "graphql";
  "microservices"; "devops"; "ci"; "cd"; "linux"; "unix"; "html"; "css";
  "sass"; "less"; "redux"; "mobx"; "jest"; "testing"; "tdd"; "bdd"
].

(** [Map<string, number>] in insertion order. *)
Definition Map_get (m : list (string * nat)) (key : string) : option nat :=
  match find (fun e => String.eqb (fst e) key) m with
  | Some e => Some (snd e)
  | None => None
  end.

Fixpoint Map_set (m : list (string * nat)) (key : string) (v : nat)
  : list (string * nat) :=
  match m with
  | [] => [(key, v)]
  | e :: t =>
      if String.eqb (fst e) key then (key, v) :: t else e :: Map_set t key v
  end.

(** The [forEach] that counts the words. *)
Definition countWords (words : list string) : list (string * nat) :=
  fold_left
    (fun wordFreq word =>
       Map_set wordFreq word
         (match Map_get wordFreq word with Some n => n | None => 0 end + 1))
    words [].

(** The test applied to each entry of [wordFreq]. *)
Definition isKeyword (e : string * nat) : bool :=
  (2 <=? snd e)%nat || has techTerms (fst e) || (5 <? String.length (fst e))%nat.

Definition extractKeywords (jobDescription : string) : list string :=
  let normalized := normalizeText jobDescription in
  let words := split_ws normalized in
  let wordFreq := countWords words in
  let keywords := map fst (filter isKeyword wordFreq) in
  Set_from keywords.

Local Open Scope float_scope.

Definition calculateKeywordOverlap
  (normalizedResume _normalizedJobDesc : string) (jobKeywords : list string)
  : float :=
  match jobKeywords with
  | [] => 0
  | _ =>
      let resumeWords := Set_from (split_ws normalizedResume) in
      let matchedKeywords := filter (has resumeWords) jobKeywords in
      (of_nat (List.length matchedKeywords) / of_nat (List.length jobKeywords)) * 100
  end.

Definition generateKeywordImprovements
  (jobKeywords : list string) (normalizedResume : string) : list string :=
  let resumeWords := Set_from (split_ws normalizedResume) in
  let missingKeywords :=
    filter (fun keyword => negb (has resumeWords keyword)) jobKeywords in
  slice0 10 missingKeywords.

(* ===================================================================== *)
(** ** Skills *)
(* ===================================================================== *)

Definition LF : ascii := "010"%char.

(** [[:\s\n]] *)
Definition colonOrSpace (c : ascii) : bool := Ascii.eqb c ":" || isWhiteSpace c.

(** [(?=\n\n|\n(?:experience|education|responsibilities|duties)|$)]
    under the flags [is]. *)
Definition sectionEnd : re :=
  Ahead (alts [
    Cat (ch LF) (ch LF);
    Cat (ch LF) (alts [lit_i "experience"; lit_i "education";
                       lit_i "responsibilities"; lit_i "duties"]);
    Eos ]).

(** The two entries of [skillPatterns]; with the [s] flag the dot matches
    every character. *)
Definition skillPatterns : list re := [
  cats [ alts [ lit_i "required";
               Cat (lit_i "required skill") (opt (ch_i "s"));
               Cat (lit_i "qualification") (opt (ch_i "s"));
               Cat (lit_i "requirement") (opt (ch_i "s"));
               Cat (lit_i "skill") (opt (ch_i "s")) ];
        plus (Chr colonOrSpace);
        Grp (star_lazy any);
        sectionEnd ];
  cats [ alts [ Cat (lit_i "technical skill") (opt (ch_i "s"));
               Cat (lit_i "core competencie") (opt (ch_i "s"));
               Cat (lit_i "key skill") (opt (ch_i "s")) ];
        plus (Chr colonOrSpace);
        Grp (star_lazy any);
        sectionEnd ]
].

(** The separators of [/[,\n•\-\*\|]/]; the bullet U+2022 lies outside
    the alphabet of the embedding. *)
Definition isSkillSeparator (c : ascii) : bool :=
  Ascii.eqb c "," || Ascii.eqb c LF || Ascii.eqb c "-" ||
  Ascii.eqb c "*" || Ascii.eqb c "|".

(** The body of the [if (match && match[1])] branch. *)
Definition splitSkills (section : string) : list string :=
  filter (fun s => (0 <? String.length s)%nat && (String.length s <? 50)%nat)
    (map trim (split_on isSkillSeparator section)).

(** The [for ... of skillPatterns] loop with its [break]. *)
Fixpoint firstSkillSection (patterns : list re) (jobDescription : string)
  : list string :=
  match patterns with
  | [] => []
  | pattern :: others =>
      match match1 pattern jobDescription with
      | Some g =>
          if isEmpty g then firstSkillSection others jobDescription
          else splitSkills g
      | None => firstSkillSection others jobDescription
      end
  end.

Definition extractSkillsFromJobDescription (jobDescription : string)
  : list string :=
  let skills := firstSkillSection skillPatterns jobDescription in
  let techTerms := extractKeywords jobDescription in
  Set_from (map toLowerCase (skills ++ techTerms)).

Definition getResumeSkills (resumeData : ResumeInput) : list string :=
  match resumeData with
  | Structured data =>
      let skills :=
        map (fun s => trim (toLowerCase s)) (ResumeData.skills data) in
      let skills :=
        fold_left
          (fun acc proj =>
             acc ++ map (fun t => trim (toLowerCase t))
                        (ProjectItem.technologies proj))
          (ResumeData.projects data) skills in
      Set_from skills
  | _ => []
  end.

(** The callback given to [jobSkills.filter] by [calculateSkillMatch]. *)
Definition skillMatches (normalizedResume : list string) (jobSkill : string)
  : bool :=
  if has normalizedResume jobSkill then true
  else existsb
         (fun resumeSkill =>
            includes resumeSkill jobSkill || includes jobSkill resumeSkill)
         normalizedResume.

Definition calculateSkillMatch (resumeSkills jobSkills : list string) : float :=
  match jobSkills with
  | [] => 0
  | _ =>
      let normalizedResume := Set_from resumeSkills in
      let matches := filter (skillMatches normalizedResume) jobSkills in
      (of_nat (List.length matches) / of_nat (List.length jobSkills)) * 100
  end.

(** The callback given to [jobSkills.filter] by [findMissingSkills]. *)
Definition skillIsMissing (normalizedResume : list string) (jobSkill : string)
  : bool :=
  if has normalizedResume jobSkill then false
  else negb (existsb
               (fun resumeSkill =>
                  includes resumeSkill jobSkill || includes jobSkill resumeSkill)
               normalizedResume).

Definition findMissingSkills (resumeSkills jobSkills : list string)
  : list string :=
  let normalizedResume := Set_from resumeSkills in
  filter (skillIsMissing normalizedResume) jobSkills.

(* ===================================================================== *)
(** ** Experience alignment *)
(* ===================================================================== *)

(** [[a-z\s]] under the flag [i]. *)
Definition letterOrSpace (c : ascii) : bool :=
  isLowerAZ c || isUpperAZ c || isWhiteSpace c.

Definition jobTitlePatterns : list re := [
  cats [ alts [ lit_i "position"; lit_i "role"; lit_i "title";
               lit_i "looking for"; lit_i "seeking" ];
        plus (Chr colonOrSpace);
        Grp (plus_lazy (Chr letterOrSpace));
        alts [ ch "."; ch ","; ch LF; Eos ] ];
  cats [ Bos;
        Grp (plus_lazy (Chr letterOrSpace));
        plus (Chr isWhiteSpace);
        alts [ lit_i "engineer"; lit_i "developer"; lit_i "manager";
               lit_i "analyst"; lit_i "specialist"; lit_i "coordinator";
               lit_i "director"; lit_i "lead"; lit_i "senior";
               lit_i "junior" ] ]
].

(** The loop that sets [jobTitle], with its [break]. *)
Fixpoint inferJobTitle (patterns : list re) (jobDescription : string)
  : string :=
  match patterns with
  | [] => ""
  | pattern :: others =>
      match match1 pattern jobDescription with
      | Some g =>
          if isEmpty g then inferJobTitle others jobDescription
          else toLowerCase (trim g)
      | None => inferJobTitle others jobDescription
      end
  end.

Definition calculateExperienceAlignment
  (resumeData : ResumeInput) (jobDescription : string) : float :=
  match resumeData with
  | Structured data =>
      match ResumeData.experience data with
      | [] => 0
      | experience =>
          let jobTitle := inferJobTitle jobTitlePatterns jobDescription in
          let titleMatch :=
            if isEmpty jobTitle then 0
            else
              let jobTitleWords :=
                filter (fun w => (3 <? String.length w)%nat) (split_ws jobTitle) in
              fold_left
                (fun titleMatch exp =>
                   let expTitle := toLowerCase (ExperienceItem.title exp) in
                   let matchedWords := filter (includes expTitle) jobTitleWords in
                   Math_max titleMatch
                     ((of_nat (List.length matchedWords)
                       / of_nat (List.length jobTitleWords)) * 100))
                experience 0 in
          let jobKeywords := extractKeywords jobDescription in
          let experienceKeywordMatch :=
            match jobKeywords with
            | [] => 0
            | _ =>
                let expTexts :=
                  toLowerCase
                    (join " "
                       (flat_map
                          (fun exp =>
                             ExperienceItem.title exp
                             :: ExperienceItem.company exp
                             :: ExperienceItem.bullets exp)
                          experience)) in
                let matchedKeywords := filter (includes expTexts) jobKeywords in
                (of_nat (List.length matchedKeywords)
                 / of_nat (List.length jobKeywords)) * 100
            end in
          titleMatch * 0.4 + experienceKeywordMatch * 0.6
      end
  | _ => 0
  end.

(* ===================================================================== *)
(** ** The rule-based scorer *)
(* ===================================================================== *)

Definition convertResumeDataToText (resumeData : ResumeInput) : string :=
  match resumeData with
  | Structured data =>
      let textParts : list string := [] in
      let textParts :=
        if isEmpty (ResumeData.summary data) then textParts
        else textParts ++ [ResumeData.summary data] in
      let textParts := textParts ++ [join ", " (ResumeData.skills data)] in
      let textParts :=
        fold_left
          (fun parts exp =>
             parts
             ++ [(ExperienceItem.title exp ++ " at " ++ ExperienceItem.company exp)%string]
             ++ ExperienceItem.bullets exp)
          (ResumeData.experience data) textParts in
      let textParts :=
        fold_left
          (fun parts proj =>
             parts
             ++ [ProjectItem.name proj]
             ++ [ProjectItem.description proj]
             ++ [join ", " (ProjectItem.technologies proj)]
             ++ ProjectItem.bullets proj)
          (ResumeData.projects data) textParts in
      let textParts :=
        fold_left
          (fun parts edu =>
             parts
             ++ [(EducationItem.degree edu ++ " from " ++ EducationItem.institution edu)%string]
             ++ match EducationItem.highlights edu with
                | Some highlights => highlights
                | None => []
                end)
          (ResumeData.education data) textParts in
      join " " textParts
  | _ => ""
  end.

Definition calculateATSScoreRuleBased
  (resumeData : ResumeData.t) (jobDescription : string) : ScoreResult :=
  let resumeText := convertResumeDataToText (Structured resumeData) in
  let normalizedResume := normalizeText resumeText in
  let normalizedJobDesc := normalizeText jobDescription in
  let jobKeywords := extractKeywords jobDescription in
  let keywordOverlap :=
    calculateKeywordOverlap normalizedResume normalizedJobDesc jobKeywords in
  let jobSkills := extractSkillsFromJobDescription jobDescription in
  let resumeSkills := getResumeSkills (Structured resumeData) in
  let skillMatch := calculateSkillMatch resumeSkills jobSkills in
  let missingSkills := findMissingSkills resumeSkills jobSkills in
  let experienceAlignment :=
    calculateExperienceAlignment (Structured resumeData) jobDescription in
  let keywordImprovements :=
    generateKeywordImprovements jobKeywords normalizedResume in
  let score :=
    Math_round (keywordOverlap * 0.4 + skillMatch * 0.4 + experienceAlignment * 0.2) in
  {| score := Math_min 100 (Math_max 0 score);
     skillMatch := Math_round skillMatch;
     missingSkills := missingSkills;
     keywordImprovements := keywordImprovements;
     experienceAlignment := Math_round experienceAlignment |}.

(* ===================================================================== *)
(** ** The AI scorer *)
(* ===================================================================== *)

(** A value produced by [JSON.parse]. *)
Inductive Json : Type :=
| JNull
| JBool (b : bool)
| JNum (x : float)
| JStr (s : string)
| JArr (items : list Json)
| JObj (fields : list (string * Json)).

(** What a property read yields. *)
Inductive JsValue : Type :=
| Undefined
| Val (j : Json).

(** What [calculateATSScoreWithAI] can throw. *)
Inductive Error : Type :=
| MissingApiKey        (* OPENAI_API_KEY environment variable is not set *)
| OpenAIApiError (message : string)
| EmptyResponse        (* Empty response from OpenAI *)
| ParseFailure         (* Failed to parse OpenAI response as JSON *)
| JsonSyntaxError      (* thrown by JSON.parse on the fenced text *)
| TypeError            (* property read on null *)
| Failure (message : string).

(** How [openai.chat.completions.create] ends: it throws an
    [OpenAI.APIError], it throws something else, or it resolves, and then
    [response.choices[0]?.message?.content] is a string or is absent.
    The answer is the collaborator's to choose, whatever the prompt, so
    the prompt text and [formatResumeForAI] are not part of the
    embedding; nor is the usage tracking under [userId], whose failure
    is caught on the spot and which does not touch the result. *)
Inductive Completion : Type :=
| ThrewApiError (message : string)
| Threw (message : string)
| Resolved (content : option string).

(** What the scorer reads from its surroundings: the environment
    variable, the collaborator's answer, and the built-ins [JSON.parse]
    (which throws on malformed text) and [Number]. *)
Record Env : Type := mkEnv {
  OPENAI_API_KEY : option string;
  completion : Completion;
  JSON_parse : string -> option Json;
  Number : JsValue -> float
}.

(** The last field of that name, as [JSON.parse] keeps it. *)
Fixpoint field (key : string) (fields : list (string * Json)) : JsValue :=
  match fields with
  | [] => Undefined
  | (k, v) :: t =>
      match field key t with
      | Undefined => if String.eqb k key then Val v else Undefined
      | later => later
      end
  end.

(** [v.key] for the keys read by the scorer, none of which a primitive
    wrapper or an array has: a [TypeError] on [null]. *)
Definition getProp (v : Json) (key : string) : Error + JsValue :=
  match v with
  | JNull => inl TypeError
  | JObj fields => inr (field key fields)
  | _ => inr Undefined
  end.

(** [v?.key] on a value that may be [undefined]. *)
Definition getPropOpt (v : JsValue) (key : string) : JsValue :=
  match v with
  | Val (JObj fields) => field key fields
  | _ => Undefined
  end.

(** [array.filter(x => typeof x === 'string' && p(x))]; anything but an
    array gives the empty list of the [Array.isArray] guards. *)
Definition stringsOf (p : string -> bool) (v : JsValue) : list string :=
  match v with
  | Val (JArr items) =>
      flat_map
        (fun j => match j with
                  | JStr s => if p s then [s] else []
                  | _ => []
                  end)
        items
  | _ => []
  end.

(** [/```(?:json)?\s*(\{[\s\S]*\})\s*```/] *)
Definition fencedJson : re :=
  cats [ lit "```"; opt (lit "json"); star (Chr isWhiteSpace);
        Grp (cats [ch "{"; star any; ch "}"]);
        star (Chr isWhiteSpace); lit "```" ].

(** The inner [try]/[catch] around [JSON.parse(responseContent)]. *)
Definition parseAnalysis (env : Env) (responseContent : string) : Error + Json :=
  match JSON_parse env responseContent with
  | Some aiAnalysis => inr aiAnalysis
  | None =>
      match match1 fencedJson responseContent with
      | Some g =>
          match JSON_parse env g with
          | Some aiAnalysis => inr aiAnalysis
          | None => inl JsonSyntaxError
          end
      | None => inl ParseFailure
      end
  end.

(** [Math.min(100, Math.max(0, Number(v) || 0))] *)
Definition clampScore (env : Env) (v : JsValue) : float :=
  Math_min 100 (Math_max 0 (or_zero (Number env v))).

(** The block "Validate and extract data" and the [return] after it. *)
Definition validateAnalysis (env : Env) (aiAnalysis : Json) : Error + ScoreResult :=
  match getProp aiAnalysis "score" with
  | inl e => inl e
  | inr vScore =>
      let score := clampScore env vScore in
      let skillMatch := clampScore env (getPropOpt (Val aiAnalysis) "skillMatch") in
      let experienceAlignment :=
        clampScore env (getPropOpt (Val aiAnalysis) "experienceAlignment") in
      let missingSkills :=
        stringsOf (fun s => (0 <? String.length (trim s))%nat)
          (getPropOpt (Val aiAnalysis) "missingSkills") in
      let keywordImprovements :=
        stringsOf (fun _ => true)
          (getPropOpt (Val aiAnalysis) "keywordImprovements") in
      let topRecs :=
        match getPropOpt (getPropOpt (Val aiAnalysis) "analysis") "recommendations" with
        | Val (JArr items) =>
            stringsOf (fun r => negb (has keywordImprovements r))
              (Val (JArr (slice0 5 items)))
        | _ => []
        end in
      let keywordImprovements := keywordImprovements ++ topRecs in
      inr {| score := Math_round score;
             skillMatch := Math_round skillMatch;
             missingSkills := slice0 15 missingSkills;
             keywordImprovements := slice0 15 keywordImprovements;
             experienceAlignment := Math_round experienceAlignment |}
  end.

Definition calculateATSScoreWithAI
  (env : Env) (resumeData : ResumeData.t) (jobDescription : string)
  : Error + ScoreResult :=
  match OPENAI_API_KEY env with
  | None => inl MissingApiKey
  | Some apiKey =>
      if isEmpty apiKey then inl MissingApiKey
      else
        match completion env with
        | ThrewApiError message => inl (OpenAIApiError message)
        | Threw message => inl (Failure message)
        | Resolved content =>
            let responseContent :=
              match content with
              | Some text => trim text
              | None => ""
              end in
            if isEmpty responseContent then inl EmptyResponse
            else
              match parseAnalysis env responseContent with
              | inl e => inl e
              | inr aiAnalysis => validateAnalysis env aiAnalysis
              end
        end
  end.

(* ===================================================================== *)
(** ** The entry point *)
(* ===================================================================== *)

(** The two strategies, as the calls the entry point makes. *)
Inductive Strategy : Type := AI | RuleBased.

(** [calculateATSScore], returning with the result the strategies it
    invoked, in order. *)
Definition calculateATSScore
  (env : Env) (resumeData : ResumeInput) (jobDescription : string)
  : ScoreResult * list Strategy :=
  match resumeData with
  | Structured structuredResumeData =>
      match calculateATSScoreWithAI env structuredResumeData jobDescription with
      | inr result => (result, [AI])
      | inl _error =>
          (calculateATSScoreRuleBased structuredResumeData jobDescription,
           [AI; RuleBased])
      end
  | _ =>
      ({| score := 0;
          skillMatch := 0;
          missingSkills := [];
          keywordImprovements := [];
          experienceAlignment := 0 |}, [])
  end.

(* ===================================================================== *)
(** ** Definitions used by the statements *)
(* ===================================================================== *)

(** The character left by [replacePunctuation] after [toLowerCase]. *)
Definition cleaned (c : ascii) : ascii :=
  let l := toLowerChar c in
  if isWordChar l || isWhiteSpace l then l else " "%char.

(** A character that both passes leave alone. *)
Definition settled (c : ascii) : bool := Ascii.eqb (cleaned c) c.

Definition notSpace (c : ascii) : bool := negb (isWhiteSpace c).

Definition noSpace (w : string) : bool := sall notSpace w.

(** A word of the output of [normalizeText]: not empty, no white space. *)
Definition isWord (w : string) : Prop := noSpace w = true /\ w <> "".

(** The words [normalizeText] joins. *)
Definition keptWords (text : string) : list string :=
  filter keepWord (split_ws (replacePunctuation (toLowerCase text))).

(** A one-pass tokenizer: the maximal runs of characters of the class
    [p], read left to right with the run in progress in [cur]. *)
Definition flush (cur : string) : list string :=
  if isEmpty cur then [] else [cur].

Fixpoint runsFrom (p : ascii -> bool) (cur s : string) : list string :=
  match s with
  | EmptyString => flush cur
  | String c t =>
      if p c then runsFrom p (cur ++ String c "")%string t
      else flush cur ++ runsFrom p "" t
  end.

Definition runs (p : ascii -> bool) (s : string) : list string :=
  runsFrom p "" s.

Definition onHead (cur : string) (l : list string) : list string :=
  match l with
  | h :: tl => (cur ++ h)%string :: tl
  | [] => [cur]
  end.

(** The letters among the code units U+0000..U+00FF. *)
Definition isLetter (c : ascii) : bool :=
  isUpperAZ c || isLowerAZ c
  || (code c =? 170)%N || (code c =? 181)%N || (code c =? 186)%N
  || between 192 214 c || between 216 246 c || between 248 255 c.

(** The normalizer in the words of the specification: lower-case, turn
    every character that is not a letter, a digit or white space into a
    space, split on white space, drop the short words and the stop
    words, join with single spaces. *)
Definition normalizeText_specified (text : string) : string :=
  let replaced :=
    smap (fun c => if isLetter c || isDigit c || isWhiteSpace c
                   then c else " "%char)
      (toLowerCase text) in
  join " " (filter keepWord (split_ws replaced)).

(** A character on which the specification's reading of "letter, digit
    or white space" and the class [[\w\s]] agree: not the underscore and
    not a letter outside A-Z and a-z. *)
Definition plainChar (c : ascii) : bool :=
  negb (Ascii.eqb c "_") && (isUpperAZ c || isLowerAZ c || negb (isLetter c)).

(** An empty or white-space-only string. *)
Definition blank (s : string) : bool := sall isWhiteSpace s.

(** The result of the short-circuit in [calculateATSScore]. *)
Definition zeroScore : ScoreResult :=
  {| score := 0; skillMatch := 0; missingSkills := [];
     keywordImprovements := []; experienceAlignment := 0 |}.

(** Inputs of the scenarios. *)
Module Scenario.

(** The resume and the job text of the specification's scenario. *)
Definition pythonSql : ResumeData.t :=
  ResumeData.mk None "" ["Python"; "SQL"] [] [] [] None.

Definition requiredSkillsJob : string :=
  "Required Skills: Python, SQL, Docker, Kubernetes".

(** A resume with one position, and a job text whose inferred title is
    the two-letter word "qa". *)
Definition tester : ResumeData.t :=
  ResumeData.mk None "Manual and automated testing"
    ["Selenium"]
    [ ExperienceItem.mk "1" "QA Engineer" "Acme" None "2020-01" None
        (Some true) ["Tested weekly releases"] ]
    [] [] None.

Definition qaJob : string := "Role: QA.".

(** A resume with a single unrelated skill, and a job text that names
    twenty-one technologies. *)
Definition accountant : ResumeData.t :=
  ResumeData.mk None "" ["Excel"] [] [] [] None.

Definition platformJob : string :=
  "Backend platform engineer. Python, Django, PostgreSQL, Docker, Kubernetes, Terraform, Ansible, Jenkins, GraphQL, MongoDB, Elasticsearch, RabbitMQ, TypeScript, JavaScript, Angular, Microservices, Prometheus, Grafana".

(** A parsed reply of the collaborator whose [keywordImprovements] holds
    an empty and a blank string. *)
Definition blankSuggestions : Json :=
  JObj [ ("score", JNum 72);
         ("skillMatch", JNum 60);
         ("missingSkills", JArr [JStr "Docker"; JStr "  "]);
         ("keywordImprovements", JArr [JStr ""; JStr "   "]);
         ("experienceAlignment", JNum 55) ].

(** Surroundings without an API key. *)
Definition noKey : Env :=
  {| OPENAI_API_KEY := None;
     completion := Threw "unreachable";
     JSON_parse := fun _ => None;
     Number := fun v => match v with Val (JNum x) => x | _ => nan end |}.

End Scenario.

Local Close Scope float_scope.

(* ===================================================================== *)
(** ** Lists *)
(* ===================================================================== *)

Section Filter.

Variable A : Type.
Variable p : A -> bool.

Lemma filter_Forall (l : list A) :
  Forall (fun x => p x = true) (filter p l).
Proof.
  induction l as [|x l IH]; simpl; [constructor|].
  destruct (p x) eqn:E; [constructor|]; assumption.
Qed.

Lemma filter_id (l : list A) :
  Forall (fun x => p x = true) l -> filter p l = l.
Proof.
  induction 1 as [|x l Hx _ IH]; simpl; [reflexivity|]. now rewrite Hx, IH.
Qed.

Lemma Forall_filter (P : A -> Prop) (l : list A) :
  Forall P l -> Forall P (filter p l).
Proof.
  induction 1 as [|x l Hx _ IH]; simpl; [constructor|].
  destruct (p x); [constructor|]; assumption.
Qed.

(** A filter and its complement split the list. *)
Lemma filter_partition_length (l : list A) :
  List.length (filter p l) + List.length (filter (fun x => negb (p x)) l)
  = List.length l.
Proof.
  induction l as [|x l IH]; simpl; [reflexivity|].
  destruct (p x); simpl; lia.
Qed.

End Filter.

Lemma Forall_firstn {A : Type} (P : A -> Prop) (n : nat) (l : list A) :
  Forall P l -> Forall P (firstn n l).
Proof.
  intros H. revert n. induction H as [|x l Hx _ IH]; intros [|n]; simpl;
    constructor; auto.
Qed.

Arguments filter_Forall {A} p l.
Arguments filter_id {A} p l _.
Arguments Forall_filter {A} p P l _.
Arguments filter_partition_length {A} p l.

(* ===================================================================== *)
(** ** Characters and strings *)
(* ===================================================================== *)

(** A property of characters that evaluates to [true] on each of the 256
    code units holds of all of them. *)
Lemma ascii_cases (P : ascii -> bool) :
  forallb (fun n => P (ascii_of_nat n)) (seq 0 256) = true ->
  forall c, P c = true.
Proof.
  intros H c.
  rewrite forallb_forall in H.
  rewrite <- (ascii_nat_embedding c).
  apply H, in_seq.
  pose proof (nat_ascii_bounded c). lia.
Qed.

(** The same for an implication between two such properties. *)
Lemma ascii_cases_impl (P Q : ascii -> bool) :
  forallb (fun n => negb (P (ascii_of_nat n)) || Q (ascii_of_nat n)) (seq 0 256)
  = true ->
  forall c, P c = true -> Q c = true.
Proof.
  intros H c Hc.
  pose proof (ascii_cases (fun c => negb (P c) || Q c) H c) as G.
  cbv beta in G. now rewrite Hc in G.
Qed.

Ltac by_char_cases :=
  first [ apply ascii_cases | apply ascii_cases_impl ];
  vm_compute; reflexivity.

Lemma cleaned_settled c : settled (cleaned c) = true.
Proof. revert c. by_char_cases. Qed.

Lemma word_not_space c : isWordChar c = true -> isWhiteSpace c = false.
Proof.
  intros H. apply negb_true_iff. revert c H.
  apply (ascii_cases_impl isWordChar (fun c => negb (isWhiteSpace c))).
  vm_compute. reflexivity.
Qed.

Lemma clean_is_smap s :
  replacePunctuation (toLowerCase s) = smap cleaned s.
Proof.
  unfold replacePunctuation, toLowerCase.
  induction s as [|c s IH]; simpl; [reflexivity|]. now rewrite IH.
Qed.

Lemma sall_smap_cleaned s : sall settled (smap cleaned s) = true.
Proof.
  induction s as [|c s IH]; cbn [smap sall]; [reflexivity|].
  now rewrite cleaned_settled, IH.
Qed.

Lemma smap_cleaned_fix s : sall settled s = true -> smap cleaned s = s.
Proof.
  induction s as [|c s IH]; simpl; [reflexivity|].
  intros H. apply andb_true_iff in H. destruct H as [Hc Hs].
  apply Ascii.eqb_eq in Hc. now rewrite Hc, IH.
Qed.

Lemma sall_app p a b : sall p (a ++ b)%string = sall p a && sall p b.
Proof.
  induction a as [|c a IH]; simpl; [reflexivity|].
  now rewrite IH, andb_assoc.
Qed.

(** One step of [split_ws]. *)
Lemma split_ws_eq c t :
  split_ws (String c t)
  = if isWhiteSpace c then
      match t with
      | String c' _ => if isWhiteSpace c' then split_ws t else "" :: split_ws t
      | EmptyString => "" :: split_ws t
      end
    else
      match split_ws t with
      | w :: ws => String c w :: ws
      | [] => [String c ""]
      end.
Proof. reflexivity. Qed.

Lemma split_ws_cons s : exists w ws, split_ws s = w :: ws.
Proof.
  induction s as [|c s [w [ws IH]]]; simpl.
  - now exists "", [].
  - rewrite IH. destruct (isWhiteSpace c).
    + destruct s as [|c' s']; [now exists "", (w :: ws)|].
      destruct (isWhiteSpace c'); eauto.
    + eauto.
Qed.

(** Every piece of [split_ws] consists of characters of the input. *)
Lemma sall_split_ws p s :
  sall p s = true -> Forall (fun w => sall p w = true) (split_ws s).
Proof.
  induction s as [|c s IH]; simpl; intros H.
  - repeat constructor.
  - apply andb_true_iff in H. destruct H as [Hc Hs].
    specialize (IH Hs).
    destruct (isWhiteSpace c).
    + destruct s as [|c' s']; [constructor; [reflexivity|exact IH]|].
      destruct (isWhiteSpace c'); [exact IH|constructor; [reflexivity|exact IH]].
    + destruct (split_ws s) as [|w ws]; [repeat constructor; simpl; now rewrite Hc|].
      inversion IH; subst. constructor; [simpl; now rewrite Hc|assumption].
Qed.

(** No piece of [split_ws] contains white space. *)
Lemma split_ws_noSpace s : Forall (fun w => noSpace w = true) (split_ws s).
Proof.
  induction s as [|c s IH]; simpl.
  - repeat constructor.
  - destruct (isWhiteSpace c) eqn:Hc.
    + destruct s as [|c' s']; [constructor; [reflexivity|exact IH]|].
      destruct (isWhiteSpace c'); [exact IH|constructor; [reflexivity|exact IH]].
    + destruct (split_ws s) as [|w ws];
        [repeat constructor; unfold noSpace, notSpace; simpl; now rewrite Hc|].
      inversion IH; subst.
      constructor; [unfold noSpace, notSpace in *; simpl; now rewrite Hc|assumption].
Qed.

Lemma split_ws_word w : noSpace w = true -> split_ws w = [w].
Proof.
  unfold noSpace, notSpace.
  induction w as [|c w IH]; simpl; [reflexivity|]. intros H.
  apply andb_true_iff in H. destruct H as [Hc Hw].
  apply negb_true_iff in Hc. now rewrite Hc, IH.
Qed.

(** A word, one space, then text that starts a new word. *)
Lemma split_ws_word_then w c r :
  noSpace w = true -> isWhiteSpace c = false ->
  split_ws (w ++ String " " (String c r))%string = w :: split_ws (String c r).
Proof.
  unfold noSpace, notSpace. intros Hw Hc.
  induction w as [|d w IH].
  - change (split_ws (String " " (String c r))
            = "" :: split_ws (String c r)).
    cbn [split_ws]. change (isWhiteSpace " ") with true. cbv iota.
    now rewrite Hc.
  - simpl in Hw. apply andb_true_iff in Hw. destruct Hw as [Hd Hw].
    apply negb_true_iff in Hd.
    change (split_ws (String d (w ++ String " " (String c r))%string)
            = String d w :: split_ws (String c r)).
    cbn [split_ws]. fold (split_ws (w ++ String " " (String c r))%string).
    rewrite Hd, (IH Hw). reflexivity.
Qed.

Lemma split_ws_join w ws :
  Forall isWord (w :: ws) -> split_ws (join " " (w :: ws)) = w :: ws.
Proof.
  revert w. induction ws as [|v ws IH]; intros w H.
  - inversion H as [|? ? [Hw _] _]; subst. simpl. now apply split_ws_word.
  - inversion H as [|? ? [Hw _] Hrest]; subst.
    pose proof (IH v Hrest) as IHv.
    inversion Hrest as [|? ? [Hv Hne] _]; subst.
    change (join " " (w :: v :: ws)) with (w ++ " " ++ join " " (v :: ws))%string.
    assert (Hhead : exists c r, join " " (v :: ws) = String c r
                                /\ isWhiteSpace c = false).
    { destruct v as [|c v']; [contradiction|].
      unfold noSpace, notSpace in Hv. simpl in Hv.
      apply andb_true_iff in Hv. destruct Hv as [Hc _].
      apply negb_true_iff in Hc.
      destruct ws; simpl; eauto. }
    destruct Hhead as [c [r [E Hc]]].
    rewrite E in *. 
    change (w ++ " " ++ String c r)%string with (w ++ String " " (String c r))%string.
    rewrite split_ws_word_then by assumption. now rewrite IHv.
Qed.

Lemma sall_join p ws :
  p " "%char = true ->
  Forall (fun w => sall p w = true) ws -> sall p (join " " ws) = true.
Proof.
  intros Hsp. induction 1 as [|w ws Hw Hws IH]; [reflexivity|].
  destruct ws as [|v ws]; [exact Hw|].
  change (join " " (w :: v :: ws)) with (w ++ " " ++ join " " (v :: ws))%string.
  rewrite sall_app, Hw. simpl. simpl in Hsp. rewrite Hsp. exact IH.
Qed.

(* ===================================================================== *)
(** ** The output of [normalizeText] *)
(* ===================================================================== *)

Lemma keepWord_length w : keepWord w = true -> (3 <= String.length w)%nat.
Proof.
  unfold keepWord. intros H. apply andb_true_iff in H. destruct H as [H _].
  apply Nat.ltb_lt in H. lia.
Qed.

Lemma keepWord_nonempty w : keepWord w = true -> w <> "".
Proof. intros H E. subst w. discriminate H. Qed.

Lemma keptWords_spec text :
  Forall (fun w => keepWord w = true /\ isWord w /\ sall settled w = true)
    (keptWords text).
Proof.
  unfold keptWords. rewrite clean_is_smap.
  pose proof (filter_Forall keepWord (split_ws (smap cleaned text))) as Hk.
  pose proof (Forall_filter keepWord _ _ (split_ws_noSpace (smap cleaned text))) as Hn.
  pose proof (Forall_filter keepWord _ _
                (sall_split_ws settled _ (sall_smap_cleaned text))) as Hs.
  rewrite Forall_forall in *. intros w Hw.
  specialize (Hk w Hw). specialize (Hn w Hw). specialize (Hs w Hw).
  repeat split; auto using keepWord_nonempty.
Qed.

(** Splitting the output of [normalizeText] gives back its words, or
    the single empty piece when there is none. *)
Lemma split_normalizeText text :
  split_ws (normalizeText text)
  = match keptWords text with [] => [""] | ws => ws end.
Proof.
  unfold normalizeText. fold (keptWords text).
  pose proof (keptWords_spec text) as H.
  destruct (keptWords text) as [|w ws]; [reflexivity|].
  apply split_ws_join. eapply Forall_impl; [|exact H]. now intros ? (_ & ? & _).
Qed.

Lemma normalizeText_settled text : sall settled (normalizeText text) = true.
Proof.
  unfold normalizeText. fold (keptWords text).
  apply sall_join; [reflexivity|].
  eapply Forall_impl; [|exact (keptWords_spec text)]. now intros ? (_ & _ & ?).
Qed.

(* ===================================================================== *)
(** ** Sets, maps and keywords *)
(* ===================================================================== *)

Lemma has_In l x : has l x = true <-> In x l.
Proof.
  unfold has. rewrite existsb_exists. split.
  - intros [y [Hy E]]. apply String.eqb_eq in E. now subst.
  - intros H. exists x. split; [assumption|apply String.eqb_refl].
Qed.

Lemma Set_add_In s x y : In y (Set_add s x) <-> In y s \/ y = x.
Proof.
  unfold Set_add. destruct (has s x) eqn:E.
  - apply has_In in E. split; [auto|]. intros [H| ->]; assumption.
  - rewrite in_app_iff. simpl. intuition.
Qed.

Lemma fold_Set_add_In l s y :
  In y (fold_left Set_add l s) <-> In y s \/ In y l.
Proof.
  revert s. induction l as [|x l IH]; intros s; simpl.
  - intuition.
  - rewrite IH, Set_add_In. intuition.
Qed.

Lemma Set_from_In l y : In y (Set_from l) <-> In y l.
Proof. unfold Set_from. rewrite fold_Set_add_In. simpl. intuition. Qed.

Lemma Map_set_key m k v e :
  In e (Map_set m k v) -> fst e = k \/ In (fst e) (map fst m).
Proof.
  induction m as [|[k' v'] m IH]; simpl.
  - intros [<-|[]]. now left.
  - destruct (String.eqb k' k) eqn:E.
    + intros [<-|H]; [now left|right; right; now apply in_map].
    + intros [<-|H]; [right; now left|].
      destruct (IH H); [now left|right; now right].
Qed.

Lemma countWords_key words e :
  In e (countWords words) -> In (fst e) words.
Proof.
  unfold countWords.
  assert (G : forall m,
             In e (fold_left
                     (fun wordFreq word =>
                        Map_set wordFreq word
                          (match Map_get wordFreq word with
                           | Some n => n | None => 0 end + 1)) words m) ->
             In (fst e) words \/ In (fst e) (map fst m)).
  { induction words as [|w words IH]; intros m H; simpl in *.
    - right. now apply in_map.
    - destruct (IH _ H) as [H1|H1]; [now left; right|].
      apply in_map_iff in H1. destruct H1 as [e' [E He']].
      apply Map_set_key in He'. rewrite E in He'.
      destruct He' as [->|He']; [now left; left|now right]. }
  intros H. destruct (G [] H) as [H1|[]]. exact H1.
Qed.

(* ===================================================================== *)
(** ** Splitting and tokenizing *)
(* ===================================================================== *)

Lemma append_empty (s : string) : (s ++ "")%string = s.
Proof. induction s as [|c s IH]; simpl; [reflexivity|]. now rewrite IH. Qed.

Lemma append_assoc (a b c : string) :
  ((a ++ b) ++ c)%string = (a ++ b ++ c)%string.
Proof. induction a as [|x a IH]; simpl; [reflexivity|]. now rewrite IH. Qed.

Lemma split_ws_space_head t :
  forall c, isWhiteSpace c = true ->
            exists tl, split_ws (String c t) = "" :: tl.
Proof.
  induction t as [|c' t IH]; intros c Hc.
  - simpl. rewrite Hc. eauto.
  - rewrite split_ws_eq, Hc.
    destruct (isWhiteSpace c') eqn:Hc'; [|eauto].
    exact (IH c' Hc').
Qed.

Lemma filter_flush cur tl :
  filter (fun w => negb (isEmpty w)) (cur :: tl)
  = flush cur ++ filter (fun w => negb (isEmpty w)) tl.
Proof. unfold flush. simpl. now destruct (isEmpty cur). Qed.

(** Splitting on white space and dropping the empty pieces is the same
    as collecting the runs of characters that are not white space. *)
Lemma runsFrom_split_ws u :
  forall cur,
    runsFrom notSpace cur u
    = filter (fun w => negb (isEmpty w)) (onHead cur (split_ws u)).
Proof.
  induction u as [|c t IH]; intros cur.
  - cbn [runsFrom split_ws onHead]. rewrite append_empty, filter_flush.
    simpl. now rewrite app_nil_r.
  - cbn [runsFrom]. unfold notSpace at 1.
    destruct (isWhiteSpace c) eqn:Hc; cbn [negb].
    + rewrite (IH "").
      rewrite split_ws_eq, Hc.
      destruct t as [|c' t'].
      * cbn [onHead]. rewrite append_empty, filter_flush. reflexivity.
      * destruct (isWhiteSpace c') eqn:Hc'.
        -- destruct (split_ws_space_head t' c' Hc') as [tl E]. rewrite E.
           cbn [onHead append]. rewrite append_empty, !filter_flush.
           reflexivity.
        -- cbn [onHead]. rewrite append_empty, filter_flush.
           destruct (split_ws_cons (String c' t')) as [h [tl E]]. rewrite E.
           reflexivity.
    + rewrite IH, split_ws_eq, Hc.
      destruct (split_ws_cons t) as [h [tl E]]. rewrite E.
      cbn [onHead]. rewrite append_assoc. reflexivity.
Qed.

(** The replacement turns exactly the characters outside [\w] into
    separators. *)
Lemma runsFrom_replacePunctuation s :
  forall cur,
    runsFrom notSpace cur (replacePunctuation s) = runsFrom isWordChar cur s.
Proof.
  unfold replacePunctuation.
  induction s as [|c s IH]; intros cur; [reflexivity|].
  cbn [smap runsFrom]. unfold notSpace at 1.
  destruct (isWordChar c) eqn:Hw.
  - cbn [orb]. rewrite (word_not_space c Hw). cbn [negb]. apply IH.
  - cbn [orb]. destruct (isWhiteSpace c) eqn:Hs.
    + rewrite Hs. cbn [negb]. now rewrite IH.
    + change (isWhiteSpace " ") with true. cbn [negb]. now rewrite IH.
Qed.

Lemma filter_keepWord_nonempty l :
  filter keepWord (filter (fun w => negb (isEmpty w)) l) = filter keepWord l.
Proof.
  induction l as [|w l IH]; [reflexivity|].
  cbn [filter]. destruct w as [|c w]; cbn [isEmpty negb].
  - change (keepWord "") with false. exact IH.
  - cbn [filter]. now rewrite IH.
Qed.


(* ===================================================================== *)
(** ** Blank strings *)
(* ===================================================================== *)

Lemma toLowerChar_space c : isWhiteSpace (toLowerChar c) = isWhiteSpace c.
Proof. apply Bool.eqb_prop. revert c. by_char_cases. Qed.

Lemma blank_toLowerCase s : blank (toLowerCase s) = blank s.
Proof.
  unfold blank, toLowerCase.
  induction s as [|c s IH]; [reflexivity|].
  cbn [smap sall]. now rewrite toLowerChar_space, IH.
Qed.

Lemma trimStart_head s :
  trimStart s = "" \/ exists c t, trimStart s = String c t /\ isWhiteSpace c = false.
Proof.
  induction s as [|c s IH]; [now left|].
  cbn [trimStart]. destruct (isWhiteSpace c) eqn:E; [exact IH|].
  right. now exists c, s.
Qed.

(** What [trim] returns is empty or has a character that is not white
    space. *)
Lemma trim_blank s : blank (trim s) = true -> trim s = "".
Proof.
  unfold trim. destruct (trimStart_head s) as [->|[c [t [-> Hc]]]];
    [reflexivity|].
  cbn [trimEnd]. rewrite Hc. cbn [andb]. unfold blank. cbn [sall].
  rewrite Hc. discriminate.
Qed.

Lemma isWord_not_blank w : isWord w -> blank w = false.
Proof.
  intros [Hn Hne]. destruct w as [|c w]; [contradiction|].
  unfold noSpace, notSpace in Hn. cbn [sall] in Hn.
  apply andb_true_iff in Hn. destruct Hn as [Hc _].
  apply negb_true_iff in Hc. unfold blank. cbn [sall]. now rewrite Hc.
Qed.

Lemma splitSkills_not_blank section :
  Forall (fun s => blank s = false) (splitSkills section).
Proof.
  unfold splitSkills. apply Forall_forall. intros s Hs.
  apply filter_In in Hs. destruct Hs as [Hin Hlen].
  apply in_map_iff in Hin. destruct Hin as [x [<- _]].
  apply andb_true_iff in Hlen. destruct Hlen as [Hpos _].
  apply Nat.ltb_lt in Hpos.
  destruct (blank (trim x)) eqn:E; [|reflexivity].
  apply trim_blank in E. rewrite E in Hpos. simpl in Hpos. lia.
Qed.

Lemma firstSkillSection_not_blank patterns jobDescription :
  Forall (fun s => blank s = false) (firstSkillSection patterns jobDescription).
Proof.
  induction patterns as [|pattern others IH]; [constructor|].
  cbn [firstSkillSection].
  destruct (match1 pattern jobDescription) as [g|]; [|exact IH].
  destruct (isEmpty g); [exact IH|apply splitSkills_not_blank].
Qed.

Lemma extractKeywords_kept text :
  Forall (fun k => keepWord k = true /\ isWord k) (extractKeywords text).
Proof.
  apply Forall_forall. intros k Hk.
  unfold extractKeywords in Hk. apply (proj1 (Set_from_In _ _)) in Hk.
  apply in_map_iff in Hk. destruct Hk as [e [<- He]].
  apply filter_In in He. destruct He as [He Hkw].
  rewrite split_normalizeText in He.
  pose proof (keptWords_spec text) as Hs.
  destruct (keptWords text) as [|w ws].
  - destruct He as [<-|[]]. discriminate Hkw.
  - apply countWords_key in He. rewrite Forall_forall in Hs.
    destruct (Hs _ He) as (? & ? & _). now split.
Qed.

Lemma extractKeywords_not_blank text :
  Forall (fun s => blank s = false) (extractKeywords text).
Proof.
  eapply Forall_impl; [|apply extractKeywords_kept].
  intros k [_ Hk]. now apply isWord_not_blank.
Qed.

Lemma extractSkills_not_blank jobDescription :
  Forall (fun s => blank s = false)
    (extractSkillsFromJobDescription jobDescription).
Proof.
  apply Forall_forall. intros s Hs.
  unfold extractSkillsFromJobDescription in Hs.
  apply (proj1 (Set_from_In _ _)) in Hs.
  apply in_map_iff in Hs. destruct Hs as [x [<- Hx]].
  rewrite blank_toLowerCase. apply in_app_or in Hx. destruct Hx as [Hx|Hx].
  - pose proof (firstSkillSection_not_blank skillPatterns jobDescription) as H.
    rewrite Forall_forall in H. now apply H.
  - pose proof (extractKeywords_not_blank jobDescription) as H.
    rewrite Forall_forall in H. now apply H.
Qed.

(* ===================================================================== *)
(** ** Skill matching *)
(* ===================================================================== *)

Section SkillMatching.

Variable resumeSkills : list string.

(** The two filter callbacks are complements of each other. *)
Lemma skillMatches_negb_missing (jobSkill : string) :
  skillMatches (Set_from resumeSkills) jobSkill
  = negb (skillIsMissing (Set_from resumeSkills) jobSkill).
Proof.
  unfold skillMatches, skillIsMissing.
  destruct (has (Set_from resumeSkills) jobSkill); [reflexivity|].
  now rewrite negb_involutive.
Qed.

Lemma findMissingSkills_has (jobSkills : list string) (jobSkill : string) :
  In jobSkill jobSkills ->
  has (findMissingSkills resumeSkills jobSkills) jobSkill
  = skillIsMissing (Set_from resumeSkills) jobSkill.
Proof.
  intros Hin. unfold findMissingSkills.
  destruct (skillIsMissing (Set_from resumeSkills) jobSkill) eqn:E.
  - apply has_In, filter_In. now split.
  - apply not_true_is_false. intros H. apply has_In, filter_In in H.
    destruct H as [_ H]. congruence.
Qed.

Lemma matched_plus_missing (jobSkills : list string) :
  List.length (filter (skillMatches (Set_from resumeSkills)) jobSkills)
  + List.length (findMissingSkills resumeSkills jobSkills)
  = List.length jobSkills.
Proof.
  unfold findMissingSkills.
  rewrite <- (filter_partition_length (skillMatches (Set_from resumeSkills)) jobSkills).
  f_equal. f_equal. apply filter_ext. intros j.
  rewrite skillMatches_negb_missing. now rewrite negb_involutive.
Qed.

End SkillMatching.

(* ===================================================================== *)
(** ** Bounds kept by the scorers *)
(* ===================================================================== *)

Lemma generateKeywordImprovements_length jobKeywords normalizedResume :
  List.length (generateKeywordImprovements jobKeywords normalizedResume) <= 10.
Proof. unfold generateKeywordImprovements, slice0. apply firstn_le_length. Qed.

Lemma stringsOf_Forall (p : string -> bool) (v : JsValue) :
  Forall (fun s => p s = true) (stringsOf p v).
Proof.
  destruct v as [|[| | | |items|]]; try constructor.
  unfold stringsOf. induction items as [|j items IH]; [constructor|].
  cbn [flat_map]. apply Forall_app. split; [|exact IH].
  destruct j; try constructor. destruct (p s) eqn:E; repeat constructor.
  exact E.
Qed.

(** What the validation of an AI reply does guarantee. *)
Lemma validateAnalysis_bounds env aiAnalysis result :
  validateAnalysis env aiAnalysis = inr result ->
  List.length (missingSkills result) <= 15
  /\ List.length (keywordImprovements result) <= 15
  /\ Forall (fun s => trim s <> "") (missingSkills result).
Proof.
  unfold validateAnalysis.
  destruct (getProp aiAnalysis "score"); [discriminate|].
  intros H.
  assert (E : forall a b : ScoreResult, @inr Error _ a = inr b -> a = b)
    by (intros; congruence).
  apply E in H. subst result.
  lazy beta iota delta [missingSkills keywordImprovements slice0].
  repeat split; try apply firstn_le_length.
  apply Forall_firstn.
  eapply Forall_impl; [|apply stringsOf_Forall].
  intros s Hs Hblank. cbv beta in Hs. rewrite Hblank in Hs. discriminate Hs.
Qed.

(** What the rule-based scorer does guarantee about its two lists. *)
Lemma rule_based_lists resumeData jobDescription :
  let result := calculateATSScoreRuleBased resumeData jobDescription in
  Forall (fun s => blank s = false) (missingSkills result)
  /\ Forall (fun s => blank s = false) (keywordImprovements result)
  /\ List.length (keywordImprovements result) <= 10.
Proof.
  lazy beta zeta iota
    delta [calculateATSScoreRuleBased missingSkills keywordImprovements].
  split; [|split].
  - unfold findMissingSkills. apply Forall_filter, extractSkills_not_blank.
  - unfold generateKeywordImprovements, slice0.
    apply Forall_firstn, Forall_filter, extractKeywords_not_blank.
  - apply generateKeywordImprovements_length.
Qed.

(* ===================================================================== *)
(** ** Where the specification's normalizer and the code agree *)
(* ===================================================================== *)

Lemma plainChar_same_replacement c :
  plainChar c = true ->
  (let l := toLowerChar c in
   if isLetter l || isDigit l || isWhiteSpace l then l else " "%char)
  = cleaned c.
Proof.
  intros H. apply Ascii.eqb_eq. revert c H.
  apply (ascii_cases_impl plainChar
           (fun c => Ascii.eqb
                       (let l := toLowerChar c in
                        if isLetter l || isDigit l || isWhiteSpace l
                        then l else " "%char)
                       (cleaned c))).
  vm_compute. reflexivity.
Qed.

(** On a text without underscore and without letters outside A-Z and
    a-z, [normalizeText] is the normalizer of the specification. *)
Lemma normalizeText_agrees_on_plain text :
  sall plainChar text = true ->
  normalizeText text = normalizeText_specified text.
Proof.
  intros H. unfold normalizeText, normalizeText_specified.
  do 3 f_equal. rewrite clean_is_smap. unfold toLowerCase.
  induction text as [|c text IH]; [reflexivity|].
  cbn [sall] in H. apply andb_true_iff in H. destruct H as [Hc Ht].
  cbn [smap]. rewrite (IH Ht). f_equal.
  symmetry. exact (plainChar_same_replacement c Hc).
Qed.

(* ===================================================================== *)
(** ** Scenarios of the specification *)
(* ===================================================================== *)

Local Open Scope float_scope.

Example normalize_senior_engineer :
  normalizeText "I'm a Senior   Software-Engineer!!" = "senior software engineer".
Proof. reflexivity. Qed.

(** The substring rule, in both directions. *)
Example fuzzy_react :
  calculateSkillMatch ["react"] ["react.js"] = 100
  /\ calculateSkillMatch ["react.js"] ["react"] = 100
  /\ findMissingSkills ["react"] ["react.js"] = [].
Proof. vm_compute. repeat split. Qed.

Lemma no_experience_no_alignment resumeData jobDescription :
  ResumeData.experience resumeData = [] ->
  calculateExperienceAlignment (Structured resumeData) jobDescription = 0.
Proof. intros H. unfold calculateExperienceAlignment. now rewrite H. Qed.

(* ===================================================================== *)
(** ** The claims *)
(* ===================================================================== *)

(** C1. Fallback: on a resume that is not blank, when the AI scorer
    fails, whatever the error, [calculateATSScore] returns exactly what
    [calculateATSScoreRuleBased] returns on the same resume and job
    description, after a single attempt at the AI scorer. *)
Theorem fallback_returns_rule_based
  (env : Env) (resumeData : ResumeData.t) (jobDescription : string) (e : Error) :
  calculateATSScoreWithAI env resumeData jobDescription = inl e ->
  calculateATSScore env (Structured resumeData) jobDescription
  = (calculateATSScoreRuleBased resumeData jobDescription, [AI; RuleBased]).
Proof.
  intros Hfail. unfold calculateATSScore. now rewrite Hfail.
Qed.

Lemma fallback_returns_rule_based_witness :
  calculateATSScoreWithAI Scenario.noKey Scenario.pythonSql
    Scenario.requiredSkillsJob = inl MissingApiKey
  /\ calculateATSScore Scenario.noKey (Structured Scenario.pythonSql)
       Scenario.requiredSkillsJob
     = (calculateATSScoreRuleBased Scenario.pythonSql Scenario.requiredSkillsJob,
        [AI; RuleBased]).
Proof.
  split; [reflexivity|].
  apply (fallback_returns_rule_based Scenario.noKey Scenario.pythonSql
           Scenario.requiredSkillsJob MissingApiKey).
  reflexivity.
Defined.

(** C2. Short-circuit: on a resume that is [null], [undefined] or an
    object without keys, [calculateATSScore] returns the all-zero result
    for every job description and invokes neither strategy. *)
Theorem blank_resume_short_circuit
  (env : Env) (resumeData : ResumeInput) (jobDescription : string) :
  isBlank resumeData = true ->
  calculateATSScore env resumeData jobDescription
  = ({| score := 0; skillMatch := 0; missingSkills := [];
        keywordImprovements := []; experienceAlignment := 0 |}, []).
Proof.
  destruct resumeData; [reflexivity|reflexivity|discriminate].
Qed.

Lemma blank_resume_short_circuit_witness :
  isBlank EmptyObject = true
  /\ calculateATSScore Scenario.noKey EmptyObject Scenario.platformJob
     = (zeroScore, []).
Proof.
  split; [reflexivity|].
  apply (blank_resume_short_circuit Scenario.noKey EmptyObject
           Scenario.platformJob).
  reflexivity.
Defined.

(** C3, at an input where the code departs from it. The job text
    "Role: QA." yields the title "qa", which has no word longer than
    three characters; with one position in the resume the title score
    is 0/0, and the rule-based scorer returns NaN as
    [experienceAlignment] and as [score]. *)
Theorem short_title_gives_NaN :
  inferJobTitle jobTitlePatterns Scenario.qaJob = "qa"
  /\ is_nan (calculateExperienceAlignment (Structured Scenario.tester)
               Scenario.qaJob) = true
  /\ is_nan (experienceAlignment
               (calculateATSScoreRuleBased Scenario.tester Scenario.qaJob)) = true
  /\ is_nan (score
               (calculateATSScoreRuleBased Scenario.tester Scenario.qaJob)) = true.
Proof. vm_compute. repeat split. Qed.

(** C4, at two inputs where the code departs from it. The rule-based
    scorer returns all twenty-one missing skills of a job text that
    names twenty-one technologies, and the validation of an AI reply
    keeps an empty and a blank string in [keywordImprovements]. *)
Theorem list_limits_not_enforced :
  List.length
    (missingSkills
       (calculateATSScoreRuleBased Scenario.accountant Scenario.platformJob))
  = 21%nat
  /\ forall env : Env,
       exists result,
         validateAnalysis env Scenario.blankSuggestions = inr result
         /\ missingSkills result = ["Docker"]
         /\ keywordImprovements result = [""; "   "].
Proof.
  split; [vm_compute; reflexivity|].
  intros env. eexists. split; [reflexivity|]. split; reflexivity.
Qed.

(** C5. Division policy: for a job description with no extractable
    keyword and no derivable skill, the skill match and the keyword
    overlap are 0, hence neither NaN nor 100, and so is the skill match
    reported by the rule-based scorer. *)
Theorem no_keywords_no_signal
  (jobDescription : string) (resumeSkills : list string)
  (normalizedResume normalizedJobDesc : string) (resumeData : ResumeData.t) :
  extractKeywords jobDescription = [] ->
  extractSkillsFromJobDescription jobDescription = [] ->
  calculateSkillMatch resumeSkills
    (extractSkillsFromJobDescription jobDescription) = 0
  /\ calculateKeywordOverlap normalizedResume normalizedJobDesc
       (extractKeywords jobDescription) = 0
  /\ skillMatch (calculateATSScoreRuleBased resumeData jobDescription) = 0.
Proof.
  intros Hk Hs. unfold calculateATSScoreRuleBased. cbn [skillMatch].
  rewrite Hk, Hs. repeat split.
Qed.

Lemma no_keywords_no_signal_witness :
  extractKeywords "" = []
  /\ extractSkillsFromJobDescription "" = []
  /\ calculateSkillMatch ["python"; "sql"]
       (extractSkillsFromJobDescription "") = 0
  /\ calculateKeywordOverlap "python sql" "" (extractKeywords "") = 0
  /\ skillMatch (calculateATSScoreRuleBased Scenario.pythonSql "") = 0.
Proof.
  split; [reflexivity|]. split; [reflexivity|].
  apply (no_keywords_no_signal "" ["python"; "sql"] "python sql" ""
           Scenario.pythonSql); reflexivity.
Defined.

(** C6, as the code has it. For the resume with skills "Python" and
    "SQL" and the job text "Required Skills: Python, SQL, Docker,
    Kubernetes", the missing skills include "docker" and "kubernetes";
    the required skills also hold the keywords "required" and "skills"
    of the job text, which the resume lacks too, so the skill match is
    below 50. *)
Theorem scenario_python_sql :
  let resumeSkills := getResumeSkills (Structured Scenario.pythonSql) in
  let jobSkills := extractSkillsFromJobDescription Scenario.requiredSkillsJob in
  let missing := findMissingSkills resumeSkills jobSkills in
  resumeSkills = ["python"; "sql"]
  /\ has missing "docker" = true
  /\ has missing "kubernetes" = true
  /\ has (extractKeywords Scenario.requiredSkillsJob) "required" = true
  /\ has (extractKeywords Scenario.requiredSkillsJob) "skills" = true
  /\ has missing "required" = true
  /\ has missing "skills" = true
  /\ (calculateSkillMatch resumeSkills jobSkills <? 50) = true
  /\ (skillMatch
        (calculateATSScoreRuleBased Scenario.pythonSql Scenario.requiredSkillsJob)
      <? 50) = true.
Proof. vm_compute. repeat split. Qed.

(** The scenario of C6 evaluated in full: the skill section found by the
    first pattern starts after the word "Required", seven skills are
    required, three of them are matched, and 43 is reported. *)
Lemma scenario_python_sql_values :
  let resumeSkills := getResumeSkills (Structured Scenario.pythonSql) in
  let jobSkills := extractSkillsFromJobDescription Scenario.requiredSkillsJob in
  match1 (hd Emp skillPatterns) Scenario.requiredSkillsJob
  = Some "Skills: Python, SQL, Docker, Kubernetes"
  /\ jobSkills = ["skills: python"; "sql"; "docker"; "kubernetes";
                  "required"; "skills"; "python"]
  /\ findMissingSkills resumeSkills jobSkills
     = ["docker"; "kubernetes"; "required"; "skills"]
  /\ calculateSkillMatch resumeSkills jobSkills = of_nat 3 / of_nat 7 * 100
  /\ skillMatch
       (calculateATSScoreRuleBased Scenario.pythonSql Scenario.requiredSkillsJob)
     = 43.
Proof. vm_compute. repeat split. Qed.

(** C6 as stated fails: the skill match of the scenario is not 50. *)
Lemma scenario_python_sql_not_50 :
  calculateSkillMatch
    (getResumeSkills (Structured Scenario.pythonSql))
    (extractSkillsFromJobDescription Scenario.requiredSkillsJob)
  <> 50.
Proof. vm_compute. intros H. discriminate H. Qed.

(** C7, as the code has it. [normalizeText] lower-cases the input and
    joins with single spaces the maximal runs of characters of
    [A-Za-z0-9_] that are longer than two characters and are not stop
    words: every other character that is not white space is replaced by
    a space, and an underscore is part of the word around it. *)
Theorem normalizeText_word_runs (text : string) :
  normalizeText text
  = join " " (filter keepWord (runs isWordChar (toLowerCase text)))
  /\ (forall w : string,
        keepWord w = true <-> (2 < String.length w)%nat /\ ~ In w stopWords)
  /\ isWordChar "_" = true
  /\ normalizeText "foo_bar" = "foo_bar".
Proof.
  split; [|split; [|split; reflexivity]].
  - unfold normalizeText, runs.
    rewrite <- runsFrom_replacePunctuation, runsFrom_split_ws.
    destruct (split_ws_cons (replacePunctuation (toLowerCase text)))
      as [h [tl E]].
    rewrite E. cbn [onHead append]. now rewrite filter_keepWord_nonempty.
  - intros w. unfold keepWord.
    rewrite andb_true_iff, Nat.ltb_lt, negb_true_iff, <- not_true_iff_false.
    now rewrite has_In.
Qed.

(** C7 as stated fails: the normalizer of the specification separates
    the two words around an underscore, [normalizeText] does not. *)
Lemma normalizeText_keeps_underscore :
  normalizeText "foo_bar" <> normalizeText_specified "foo_bar".
Proof. vm_compute. intros H. discriminate H. Qed.



(** C9. Every keyword returned by [extractKeywords] has at least three
    characters; in particular the dictionary entries "ci" and "cd" are
    never returned. *)
Theorem extractKeywords_min_length (text : string) :
  Forall (fun k => (3 <= String.length k)%nat) (extractKeywords text)
  /\ has (extractKeywords text) "ci" = false
  /\ has (extractKeywords text) "cd" = false.
Proof.
  assert (L : Forall (fun k => (3 <= String.length k)%nat) (extractKeywords text)).
  { eapply Forall_impl; [|apply extractKeywords_kept].
    intros k [Hk _]. now apply keepWord_length. }
  split; [exact L|].
  rewrite Forall_forall in L.
  split; apply not_true_is_false; intros H; apply has_In in H;
    apply L in H; simpl in H; lia.
Qed.

(** C10. [normalizeText] is idempotent. *)
Theorem normalizeText_idempotent (s : string) :
  normalizeText (normalizeText s) = normalizeText s.
Proof.
  unfold normalizeText at 1.
  rewrite clean_is_smap, (smap_cleaned_fix _ (normalizeText_settled s)).
  rewrite split_normalizeText.
  unfold normalizeText. fold (keptWords s).
  pose proof (keptWords_spec s) as H.
  destruct (keptWords s) as [|w ws] eqn:E; [reflexivity|].
  rewrite filter_id; [reflexivity|].
  eapply Forall_impl; [|exact H]. now intros ? (? & _).
Qed.
